(** * The table-of-contents verification runner

    A model of [jules-scratch/verification/verify_toc_tracking.py]: a
    Playwright script that opens the reader application, opens a book, opens
    the table-of-contents panel, scrolls the reading pane and takes a
    screenshot.

    The script is a straight line of awaited calls into the browser
    library, wrapped in [try / except Exception / finally] inside an
    [async with] block.  The browser and the application under test are
    external: they are represented by a [world] that decides, for each call
    the script makes, whether the call returns or raises.  The script itself
    is embedded as a computation in a state-and-exception monad whose state
    records every call made, every exception the script raises by itself
    and every line printed, in order.

    What is taken from the library and from Python, and not from the
    script:
    - any awaited library call may raise, with an exception of any class;
    - building a locator ([page.locator], [get_by_title], the property
      [first]) only describes an element and does nothing in the browser;
    - [first] is a property of a locator whose value is a locator, and a
      locator is not callable: the expression [l.first()] of lines 17 and
      18 raises [TypeError] when it is evaluated;
    - [print] does not raise;
    - a [screenshot] call that returns has written its file, one that
      raises has not;
    - the exit of [async_playwright] does not swallow an exception. *)

From Stdlib Require Import List String ZArith QArith Bool Arith Lia.
Import ListNotations.

Local Open Scope string_scope.
Local Open Scope list_scope.
Local Open Scope nat_scope.

(** ** Exceptions *)

(** The classes of exception that matter to [except Exception]: the two
    classes the browser library raises (its [TimeoutError] and its general
    [Error]), Python's [TypeError], any other subclass of [Exception], and
    the classes that derive from [BaseException] only ([KeyboardInterrupt],
    [SystemExit], [asyncio.CancelledError]). *)
Inductive exn_class : Type :=
| TimeoutError
| PlaywrightError
| TypeError
| OtherException
| BaseExceptionOnly.

Record exn : Type := mkExn {
  exn_cls : exn_class;
  exn_msg : string          (* what [str(e)] gives *)
}.

(** [isinstance(e, Exception)] *)
Definition is_Exception (e : exn) : bool :=
  match exn_cls e with
  | BaseExceptionOnly => false
  | _ => true
  end.

(** ** The page side: locators, the reading pane, the injected script *)

Inductive locator : Type :=
| Css (selector : string)       (* page.locator(selector)        *)
| First (l : locator)           (* l.first()                     *)
| ByTitle (title : string).     (* page.get_by_title(title)      *)

Fixpoint locator_eqb (a b : locator) : bool :=
  match a, b with
  | Css s, Css s' => String.eqb s s'
  | First l, First l' => locator_eqb l l'
  | ByTitle t, ByTitle t' => String.eqb t t'
  | _, _ => false
  end.

(** What the injected script sees of the element it is given: its scroll
    height, and the [scrollTo(x, y)] requests made on it (oldest first). *)
Record element : Type := mkElement {
  scrollHeight : Z;
  scroll_requests : list (Q * Q)
}.

Definition scrollTo (el : element) (x y : Q) : element :=
  {| scrollHeight := scrollHeight el;
     scroll_requests := scroll_requests el ++ [(x, y)] |}.

Inductive js_result : Type :=
| JsReturn (el : element)
| JsThrow (message : string).

(** A script handed to [locator.evaluate]: its text, and what the text does
    to the element it receives. *)
Record js_function : Type := mkJs {
  js_source : string;
  js_apply : element -> js_result
}.

(** ** Calls into the browser library *)

(** One constructor per library call the script awaits, with the arguments
    the script passes.  An optional argument the script leaves out is
    [None]; timeouts are in milliseconds. *)
Inductive call : Type :=
| PlaywrightStart                                   (* async_playwright().__aenter__ *)
| Launch (headless : bool)                          (* p.chromium.launch             *)
| NewPage                                           (* browser.new_page              *)
| Goto (url : string) (timeout : option Z)          (* page.goto                     *)
| ExpectVisible (l : locator) (timeout : option Z)  (* expect(l).to_be_visible       *)
| Click (l : locator)                               (* l.click                       *)
| Hover (selector : string) (x y : Z)               (* page.hover                    *)
| Evaluate (l : locator) (f : js_function)          (* l.evaluate                    *)
| WaitForTimeout (ms : Z)                           (* page.wait_for_timeout         *)
| Screenshot (path : string) (full_page : option bool)  (* page.screenshot           *)
| Close                                             (* browser.close                 *)
| PlaywrightStop.                                   (* async_playwright().__aexit__  *)

Inductive outcome : Type :=
| Done
| Raises (e : exn).

(** What a run does: a library call with its answer, an exception raised
    by the evaluation of an expression of the script itself, a line
    printed. *)
Inductive event : Type :=
| Called (c : call) (o : outcome)
| Threw (e : exn)
| Printed (line : string).

(** ** The world and the runner's state *)

(** The world answers the [n]-th library call of the run (counting from 0)
    and holds the element that the reading-pane locator resolves to.  For
    [Evaluate], the answer [Done] means that the locator resolved and the
    script was run on the element; whether the call then returns depends on
    the script. *)
Record world : Type := mkWorld {
  respond : nat -> outcome;
  reading_pane : element
}.

Record state : Type := mkState {
  clock : nat;              (* library calls made so far *)
  trace : list event;       (* everything done so far, oldest first *)
  pane : element
}.

Definition initial (w : world) : state :=
  {| clock := 0; trace := []; pane := reading_pane w |}.

Inductive result (A : Type) : Type :=
| Returned (a : A)
| Raised (e : exn).

Arguments Returned {A} a.
Arguments Raised {A} e.

(** ** The monad of awaited calls *)

Definition M (A : Type) : Type := world -> state -> result A * state.

Definition ret {A} (a : A) : M A := fun _ s => (Returned a, s).

Definition bind {A B} (m : M A) (k : A -> M B) : M B :=
  fun w s =>
    match m w s with
    | (Returned a, s') => k a w s'
    | (Raised e, s') => (Raised e, s')
    end.

Declare Scope run_scope.
Delimit Scope run_scope with run.
Notation "x <- m ;; k" := (bind m (fun x => k))
  (at level 61, m at next level, right associativity) : run_scope.
Notation "m ;; k" := (bind m (fun _ => k))
  (at level 61, right associativity) : run_scope.
Local Open Scope run_scope.

Definition now : M nat := fun _ s => (Returned (clock s), s).

Definition log (s : state) (c : call) (o : outcome) (el : element) : state :=
  {| clock := S (clock s); trace := trace s ++ [Called c o]; pane := el |}.

(** One awaited library call. *)
Definition perform (c : call) : M unit :=
  fun w s =>
    match respond w (clock s) with
    | Raises e => (Raised e, log s c (Raises e) (pane s))
    | Done =>
        match c with
        | Evaluate _ f =>
            match js_apply f (pane s) with
            | JsReturn el => (Returned tt, log s c Done el)
            | JsThrow m =>
                let e := mkExn PlaywrightError m in
                (Raised e, log s c (Raises e) (pane s))
            end
        | _ => (Returned tt, log s c Done (pane s))
        end
    end.

(** An expression of the script raises [e]: no library call is made. *)
Definition throw {A} (e : exn) : M A :=
  fun _ s =>
    (Raised e,
     {| clock := clock s; trace := trace s ++ [Threw e]; pane := pane s |}).

(** [print]: writes a line, never raises. *)
Definition print (line : string) : M unit :=
  fun _ s =>
    (Returned tt,
     {| clock := clock s; trace := trace s ++ [Printed line]; pane := pane s |}).

(** [try: body / except Exception as e: handler e / finally: cleanup].
    The handler runs only for an instance of [Exception]; the cleanup runs
    whatever happened, and an exception of the cleanup replaces the pending
    one. *)
Definition try_except_finally
    (body : M unit) (handler : exn -> M unit) (cleanup : M unit) : M unit :=
  fun w s =>
    let '(r1, s1) := body w s in
    let '(r2, s2) :=
      match r1 with
      | Returned _ => (r1, s1)
      | Raised e => if is_Exception e then handler e w s1 else (r1, s1)
      end in
    let '(r3, s3) := cleanup w s2 in
    match r3 with
    | Returned _ => (r2, s3)
    | Raised e3 => (Raised e3, s3)
    end.

(** [async with enter as x: body x], for a context manager whose exit
    does not swallow exceptions (the browser library's returns [None]): the
    exit runs whenever the enter succeeded, and an exception of the exit
    replaces the pending one. *)
Definition async_with {A} (enter : M A) (exit_ : M unit) (body : A -> M unit)
  : M unit :=
  fun w s =>
    match enter w s with
    | (Raised e, s1) => (Raised e, s1)
    | (Returned x, s1) =>
        let '(r2, s2) := body x w s1 in
        let '(r3, s3) := exit_ w s2 in
        match r3 with
        | Returned _ => (r2, s3)
        | Raised e3 => (Raised e3, s3)
        end
    end.

(** ** The library's interface, as the script uses it *)

Record Playwright : Type := mkPlaywright { playwright_id : nat }.
Record Browser : Type := mkBrowser { browser_id : nat }.
Record Page : Type := mkPage { page_id : nat }.

Definition async_playwright : M Playwright :=
  n <- now ;; perform PlaywrightStart ;; ret (mkPlaywright n).

Definition playwright_stop : M unit := perform PlaywrightStop.

Definition launch (p : Playwright) (headless : bool) : M Browser :=
  n <- now ;; perform (Launch headless) ;; ret (mkBrowser n).

Definition new_page (b : Browser) : M Page :=
  n <- now ;; perform NewPage ;; ret (mkPage n).

Definition close (b : Browser) : M unit := perform Close.

Definition goto (pg : Page) (url : string) (timeout : option Z) : M unit :=
  perform (Goto url timeout).

Definition page_locator (pg : Page) (selector : string) : locator := Css selector.

(** The property [l.first]: the locator of the first match. *)
Definition first (l : locator) : locator := First l.

(** What calling a locator raises. *)
Definition not_callable : exn :=
  mkExn TypeError "'Locator' object is not callable".

(** The call [l()] of a locator object, as in [page.locator(s).first()]: a
    locator has no call operator. *)
Definition call_locator (l : locator) : M locator := throw not_callable.

Definition get_by_title (pg : Page) (title : string) : locator := ByTitle title.

Definition expect_to_be_visible (l : locator) (timeout : option Z) : M unit :=
  perform (ExpectVisible l timeout).

Definition click (l : locator) : M unit := perform (Click l).

Definition hover (pg : Page) (selector : string) (x y : Z) : M unit :=
  perform (Hover selector x y).

Definition evaluate (l : locator) (f : js_function) : M unit :=
  perform (Evaluate l f).

Definition wait_for_timeout (pg : Page) (ms : Z) : M unit :=
  perform (WaitForTimeout ms).

Definition screenshot (pg : Page) (path : string) (full_page : option bool)
  : M unit :=
  perform (Screenshot path full_page).

(** ** The script *)

Definition library_url : string := "http://localhost:3000/library".
Definition book_link_selector : string := "a[href*='/reader?id=']".
Definition reader_container_selector : string := ".epub-container".
Definition toc_title : string := "Table of Contents".
Definition toc_panel_selector : string := "nav".
Definition verification_png : string :=
  "jules-scratch/verification/verification.png".
Definition error_png : string := "jules-scratch/verification/error.png".
Definition success_line : string := "Screenshot taken successfully.".
Definition error_line (e : exn) : string := "An error occurred: " ++ exn_msg e.

(** [(element) => { element.scrollTo(0, element.scrollHeight / 2); }]:
    the division is JavaScript's, on numbers, so an odd height gives a
    half; nothing in the body throws. *)
Definition scroll_to_middle : js_function :=
  {| js_source :=
       "(element) => { element.scrollTo(0, element.scrollHeight / 2); }";
     js_apply := fun el =>
       JsReturn (scrollTo el 0%Q (inject_Z (scrollHeight el) / 2)%Q) |}.

(** The body of the [try] block. *)
Definition steps (page : Page) : M unit :=
  (* 1. Navigate to the library page. *)
  goto page library_url (Some 60000%Z) ;;
  (* 2. Wait for the library to load and click the first book. *)
  book_link <- call_locator (first (page_locator page book_link_selector)) ;;
  expect_to_be_visible book_link (Some 30000%Z) ;;
  book_link' <- call_locator (first (page_locator page book_link_selector)) ;;
  click book_link' ;;
  (* 3. Wait for the reader to load. *)
  expect_to_be_visible (page_locator page reader_container_selector)
                       (Some 30000%Z) ;;
  (* 4. Hover over the top of the page to make the toolbar appear. *)
  hover page "body" 1%Z 1%Z ;;
  (* 5. Click the "Contents" button to open the TOC. *)
  let toc_button := get_by_title page toc_title in
  expect_to_be_visible toc_button (Some 10000%Z) ;;
  click toc_button ;;
  (* 6. Wait for the TOC to be visible. *)
  expect_to_be_visible (page_locator page toc_panel_selector) (Some 10000%Z) ;;
  (* 7. Scroll the reader container down to the middle of the book. *)
  let reader_container := page_locator page reader_container_selector in
  evaluate reader_container scroll_to_middle ;;
  (* Give it a moment for the scroll to register and the TOC to update. *)
  wait_for_timeout page 2000%Z ;;
  (* 8. Take a screenshot. *)
  screenshot page verification_png None ;;
  print success_line.

(** The [except Exception as e] block. *)
Definition on_error (page : Page) (e : exn) : M unit :=
  print (error_line e) ;;
  screenshot page error_png None.

Definition main : M unit :=
  async_with async_playwright playwright_stop (fun p =>
    browser <- launch p true ;;
    page <- new_page browser ;;
    try_except_finally (steps page) (on_error page) (close browser)).

(** A run of [main] from the start, in a given world. *)
Definition run (w : world) : result unit * state := main w (initial w).

(** [asyncio.run(main())] under [if __name__ == "__main__"]: an exception
    that leaves [main] is not handled by anything. *)
Inductive process_exit : Type :=
| ExitNormally
| UnhandledException (e : exn).

Definition program (w : world) : process_exit :=
  match fst (run w) with
  | Returned _ => ExitNormally
  | Raised e => UnhandledException e
  end.

(** ** What a run leaves behind *)

Definition events (w : world) : list event := trace (snd (run w)).

Fixpoint calls_of (evs : list event) : list call :=
  match evs with
  | [] => []
  | Called c _ :: evs' => c :: calls_of evs'
  | _ :: evs' => calls_of evs'
  end.

Fixpoint printed (evs : list event) : list string :=
  match evs with
  | [] => []
  | Printed l :: evs' => l :: printed evs'
  | _ :: evs' => printed evs'
  end.

(** The files a run writes: a screenshot call that returns has written its
    path; one that raises has written nothing. *)
Fixpoint files_written (evs : list event) : list string :=
  match evs with
  | [] => []
  | Called (Screenshot path _) Done :: evs' => path :: files_written evs'
  | _ :: evs' => files_written evs'
  end.

Definition is_launch (c : call) : bool :=
  match c with Launch _ => true | _ => false end.
Definition is_new_page (c : call) : bool :=
  match c with NewPage => true | _ => false end.
Definition is_close (c : call) : bool :=
  match c with Close => true | _ => false end.
Definition is_screenshot (c : call) : bool :=
  match c with Screenshot _ _ => true | _ => false end.

Definition count (p : call -> bool) (cs : list call) : nat :=
  List.length (filter p cs).

(** Calls that returned, in order. *)
Fixpoint returned_calls (evs : list event) : list call :=
  match evs with
  | [] => []
  | Called c Done :: evs' => c :: returned_calls evs'
  | _ :: evs' => returned_calls evs'
  end.

(** Browsers and pages open after [evs], starting from [browsers] and
    [pages]: a launch that returns opens a browser and a [new_page] that
    returns opens a page; closing the browser closes its pages; stopping
    the library ends whatever it had launched. *)
Fixpoint open_after (evs : list event) (browsers pages : nat) : nat * nat :=
  match evs with
  | [] => (browsers, pages)
  | Called (Launch _) Done :: evs' => open_after evs' (S browsers) pages
  | Called NewPage Done :: evs' => open_after evs' browsers (S pages)
  | Called Close Done :: evs' => open_after evs' (pred browsers) 0
  | Called PlaywrightStop Done :: evs' => open_after evs' 0 0
  | _ :: evs' => open_after evs' browsers pages
  end.

Definition browsers_open (evs : list event) : nat := fst (open_after evs 0 0).
Definition pages_open (evs : list event) : nat := snd (open_after evs 0 0).

(** ** Worlds to run the script in *)

Definition a_pane : element := {| scrollHeight := 1001; scroll_requests := [] |}.

Definition all_ok : world := {| respond := fun _ => Done; reading_pane := a_pane |}.

(** The [n]-th call raises [e]; every other call returns. *)
Definition failing (n : nat) (e : exn) : world :=
  {| respond := fun k => if Nat.eqb k n then Raises e else Done;
     reading_pane := a_pane |}.

(** The [n]-th call raises [e] and the [n']-th raises [e']. *)
Definition failing_twice (n : nat) (e : exn) (n' : nat) (e' : exn) : world :=
  {| respond := fun k =>
       if Nat.eqb k n then Raises e
       else if Nat.eqb k n' then Raises e' else Done;
     reading_pane := a_pane |}.

Definition timed_out : exn := mkExn TimeoutError "Timeout exceeded.".
Definition target_closed : exn := mkExn PlaywrightError "Target closed".
Definition interrupted : exn := mkExn BaseExceptionOnly "".

(** ** The shape of a run *)

(** The calls made before the [try] block is entered. *)
Definition preamble : list call := [PlaywrightStart; Launch true; NewPage].

(** The call of step 1. *)
Definition navigation : call := Goto library_url (Some 60000%Z).

Definition ok (c : call) : event := Called c Done.

(** What is pending after a call answered [o], when [r] was pending before
    it: an exception of the call replaces [r]. *)
Definition after (r : result unit) (o : outcome) : result unit :=
  match o with
  | Done => r
  | Raises e => Raised e
  end.

(** The three ways the [try] / [except] part can go: the navigation
    returns, line 17 raises its [TypeError] and the handler runs; the
    navigation raises something [except Exception] does not catch; the
    navigation raises an [Exception] and the handler runs.  [o] is the
    answer to the handler's screenshot call. *)
Inductive body_shape : list event -> result unit -> Prop :=
| body_not_callable (o : outcome) :
    body_shape
      [ok navigation; Threw not_callable;
       Printed (error_line not_callable);
       Called (Screenshot error_png None) o]
      (after (Returned tt) o)
| body_escapes (e : exn) :
    is_Exception e = false ->
    body_shape [Called navigation (Raises e)] (Raised e)
| body_handled (e : exn) (o : outcome) :
    is_Exception e = true ->
    body_shape
      [Called navigation (Raises e);
       Printed (error_line e);
       Called (Screenshot error_png None) o]
      (after (Returned tt) o).

(** The ways a whole run can go. *)
Inductive run_shape : list event -> result unit -> Prop :=
| start_fails (e : exn) :
    run_shape [Called PlaywrightStart (Raises e)] (Raised e)
| launch_fails (e : exn) (os : outcome) :
    run_shape
      [ok PlaywrightStart; Called (Launch true) (Raises e);
       Called PlaywrightStop os]
      (after (Raised e) os)
| new_page_fails (e : exn) (os : outcome) :
    run_shape
      [ok PlaywrightStart; ok (Launch true); Called NewPage (Raises e);
       Called PlaywrightStop os]
      (after (Raised e) os)
| try_entered (evs : list event) (r : result unit) (oc os : outcome) :
    body_shape evs r ->
    run_shape
      (map ok preamble ++ evs ++ [Called Close oc; Called PlaywrightStop os])
      (after (after r oc) os).

(** ** The steps *)

(** The calls that are steps of the script: everything the [try] body
    awaits.  The handler's screenshot goes to another path and is not a
    step. *)
Definition is_step (c : call) : bool :=
  match c with
  | Goto _ _ | ExpectVisible _ _ | Click _ | Hover _ _ _
  | Evaluate _ _ | WaitForTimeout _ => true
  | Screenshot path _ => String.eqb path verification_png
  | _ => false
  end.

Definition steps_taken (evs : list event) : list call :=
  filter is_step (calls_of evs).

(** An exception [e] was raised during the steps: by the evaluation of an
    expression of the script, or by a call that is a step. *)
Definition raised_in_steps (evs : list event) (e : exn) : Prop :=
  In (Threw e) evs \/
  exists c, is_step c = true /\ In (Called c (Raises e)) evs.

(** ** Interactions and waits for visibility *)



(** [P before c] holds of every call [c] of [evs] and the events before
    it, where [done] are the events before [evs]. *)
Fixpoint every_call (P : list event -> call -> bool)
    (done evs : list event) : bool :=
  match evs with
  | [] => true
  | ev :: evs' =>
      match ev with
      | Called c _ => P done c
      | _ => true
      end && every_call P (done ++ [ev]) evs'
  end.

(** ** Browsers and pages *)

Definition launched (evs : list event) : nat :=
  count is_launch (returned_calls evs).
Definition pages_created (evs : list event) : nat :=
  count is_new_page (returned_calls evs).

(** ** Bounded waits *)

Inductive wait_kind : Type :=
| LibraryNavigation       (* the navigation to the library page     *)
| BookLinkVisible         (* the first book link becoming visible   *)
| ReadingPaneVisible      (* the reading-pane container             *)
| TocControlVisible       (* the Table of Contents control          *)
| ContentsPanelVisible    (* the contents navigation landmark       *)
| SettleDelay.            (* the pause after scrolling              *)

Definition visibility_wait_kind (l : locator) : option wait_kind :=
  if locator_eqb l (First (Css book_link_selector)) then Some BookLinkVisible
  else if locator_eqb l (Css reader_container_selector) then Some ReadingPaneVisible
  else if locator_eqb l (ByTitle toc_title) then Some TocControlVisible
  else if locator_eqb l (Css toc_panel_selector) then Some ContentsPanelVisible
  else None.

(** Which wait a call is, with the bound in milliseconds that the call
    carries; [None] for a call that carries no bound. *)
Definition bounded_wait (c : call) : option (wait_kind * Z) :=
  match c with
  | Goto _ (Some t) => Some (LibraryNavigation, t)
  | ExpectVisible l (Some t) =>
      match visibility_wait_kind l with
      | Some k => Some (k, t)
      | None => None
      end
  | WaitForTimeout ms => Some (SettleDelay, ms)
  | _ => None
  end.

Fixpoint bounded_waits (cs : list call) : list (wait_kind * Z) :=
  match cs with
  | [] => []
  | c :: cs' =>
      match bounded_wait c with
      | Some kt => kt :: bounded_waits cs'
      | None => bounded_waits cs'
      end
  end.

(** The bounds as the specification states them: 30 s for the major
    transitions, 10 s for the toolbar and panel elements, 2 s to settle. *)
Definition stated_bound (k : wait_kind) : Z :=
  match k with
  | LibraryNavigation | BookLinkVisible | ReadingPaneVisible => 30000
  | TocControlVisible | ContentsPanelVisible => 10000
  | SettleDelay => 2000
  end.

(** ** Screenshots *)

(** [page.screenshot] captures the whole scrollable page only when it is
    passed [full_page=True]; otherwise it captures the viewport. *)
Definition captures_full_page (c : call) : bool :=
  match c with
  | Screenshot _ (Some true) => true
  | _ => false
  end.

Definition screenshot_calls (evs : list event) : list call :=
  filter is_screenshot (calls_of evs).

(** ** More observations on a run *)

Definition is_stop (c : call) : bool :=
  match c with PlaywrightStop => true | _ => false end.

(** The calls made on the page. *)
Definition is_page_operation (c : call) : bool :=
  match c with
  | Goto _ _ | ExpectVisible _ _ | Click _ | Hover _ _ _
  | Evaluate _ _ | WaitForTimeout _ | Screenshot _ _ => true
  | _ => false
  end.

Definition is_returned_evaluate (ev : event) : bool :=
  match ev with
  | Called (Evaluate _ _) Done => true
  | _ => false
  end.

(** The scroll of step 7 was made and returned. *)
Definition scrolled (evs : list event) : bool :=
  existsb is_returned_evaluate evs.

(** The sum of the bounds, in milliseconds, of the bounded waits of [evs]. *)
Definition total_bound_ms (evs : list event) : Z :=
  fold_right Z.add 0%Z (map snd (bounded_waits (calls_of evs))).

Definition is_opened_page (ev : event) : bool :=
  match ev with
  | Called NewPage Done => true
  | _ => false
  end.

Definition is_close_call (ev : event) : bool :=
  match ev with
  | Called Close _ => true
  | _ => false
  end.

(** In [before], the page has been opened and [browser.close()] has not
    been called. *)
Definition page_in_use (before : list event) : bool :=
  existsb is_opened_page before && negb (existsb is_close_call before).

(** A call on the page is made only while the page is in use. *)
Definition on_open_page (before : list event) (c : call) : bool :=
  if is_page_operation c then page_in_use before else true.

(** ** Lemmas on the monad and on single calls *)

Lemma perform_cases (c : call) (w : world) (s : state) :
  exists o s',
    perform c w s = (after (Returned tt) o, s') /\
    trace s' = trace s ++ [Called c o].
Proof.
  unfold perform.
  destruct (respond w (clock s)) as [|e].
  - destruct c; try (exists Done; eexists; split; reflexivity).
    destruct (js_apply f (pane s)) as [el|m].
    + exists Done; eexists; split; reflexivity.
    + exists (Raises (mkExn PlaywrightError m)); eexists; split; reflexivity.
  - exists (Raises e); eexists; split; reflexivity.
Qed.

Lemma print_trace (l : string) (w : world) (s : state) :
  exists s', print l w s = (Returned tt, s') /\ trace s' = trace s ++ [Printed l].
Proof. eexists; split; reflexivity. Qed.

Lemma throw_trace {A} (e : exn) (w : world) (s : state) :
  exists s', @throw A e w s = (Raised e, s') /\ trace s' = trace s ++ [Threw e].
Proof. eexists; split; reflexivity. Qed.

Lemma bind_Returned {A B} {m : M A} (k : A -> M B) {w s a s'} :
  m w s = (Returned a, s') -> bind m k w s = k a w s'.
Proof. intros H; unfold bind; rewrite H; reflexivity. Qed.

Lemma bind_Raised {A B} {m : M A} (k : A -> M B) {w s e s'} :
  m w s = (Raised e, s') -> bind m k w s = (Raised e, s').
Proof. intros H; unfold bind; rewrite H; reflexivity. Qed.

(** The [try] body never gets past line 17: either the navigation raises,
    or it returns and the call of the locator raises [TypeError]. *)
Lemma steps_cases (page : Page) (w : world) (s : state) :
  (exists s', steps page w s = (Raised not_callable, s') /\
              trace s' = trace s ++ [ok navigation; Threw not_callable]) \/
  (exists e s', steps page w s = (Raised e, s') /\
                trace s' = trace s ++ [Called navigation (Raises e)]).
Proof.
  unfold steps, goto.
  destruct (perform_cases navigation w s) as (o & s1 & Hgo & Ht).
  fold navigation. destruct o as [|e]; cbn [after] in Hgo.
  - left. rewrite (bind_Returned _ Hgo).
    unfold call_locator.
    destruct (@throw_trace locator not_callable w s1) as (s2 & Hth & Ht2).
    rewrite (bind_Raised _ Hth).
    exists s2. split; [reflexivity|].
    rewrite Ht2, Ht, <- app_assoc. reflexivity.
  - right. exists e, s1. split; [exact (bind_Raised _ Hgo) | exact Ht].
Qed.

(** The [try] statement: the body goes one of its three ways, then
    [browser.close()] is called. *)
Lemma try_shape (page : Page) (b : Browser) (w : world) (s : state) :
  exists evs r oc s',
    try_except_finally (steps page) (on_error page) (close b) w s
      = (after r oc, s') /\
    trace s' = trace s ++ evs ++ [Called Close oc] /\
    body_shape evs r.
Proof.
  assert (Hhandler : forall e s1,
            exists o s3,
              on_error page e w s1 = (after (Returned tt) o, s3) /\
              trace s3 = trace s1 ++ [Printed (error_line e);
                                      Called (Screenshot error_png None) o]).
  { intros e s1. unfold on_error, screenshot.
    destruct (print_trace (error_line e) w s1) as (s2 & Hp & Htp).
    rewrite (bind_Returned _ Hp).
    destruct (perform_cases (Screenshot error_png None) w s2)
      as (o & s3 & Hs & Hts).
    exists o, s3. split; [exact Hs|].
    rewrite Hts, Htp, <- app_assoc. reflexivity. }
  unfold try_except_finally, close.
  destruct (steps_cases page w s) as [(s1 & Hr & Htr) | (e & s1 & Hr & Htr)];
    rewrite Hr.
  - change (is_Exception not_callable) with true. cbv iota.
    destruct (Hhandler not_callable s1) as (o & s3 & Hh & Hth). rewrite Hh.
    destruct (perform_cases Close w s3) as (oc & s4 & Hc & Htc). rewrite Hc.
    eexists _, (after (Returned tt) o), oc, s4.
    split; [destruct oc; reflexivity | split; [|exact (body_not_callable o)]].
    rewrite Htc, Hth, Htr, <- !app_assoc. reflexivity.
  - destruct (is_Exception e) eqn:He.
    + destruct (Hhandler e s1) as (o & s3 & Hh & Hth). rewrite Hh.
      destruct (perform_cases Close w s3) as (oc & s4 & Hc & Htc). rewrite Hc.
      eexists _, (after (Returned tt) o), oc, s4.
      split; [destruct oc; reflexivity | split; [|exact (body_handled e o He)]].
      rewrite Htc, Hth, Htr, <- !app_assoc. reflexivity.
    + destruct (perform_cases Close w s1) as (oc & s2 & Hc & Htc). rewrite Hc.
      eexists _, (Raised e), oc, s2.
      split; [destruct oc; reflexivity | split; [|exact (body_escapes e He)]].
      rewrite Htc, Htr, <- !app_assoc. reflexivity.
Qed.

(** Every run has one of the shapes of [run_shape]. *)
Lemma anatomy (w : world) : run_shape (events w) (fst (run w)).
Proof.
  unfold events, run, main, async_with, async_playwright, playwright_stop,
    launch, new_page.
  cbv beta iota delta [bind now ret].
  destruct (perform_cases PlaywrightStart w (initial w)) as (o0 & s0 & H0 & T0).
  rewrite H0. destruct o0 as [|e0]; cbn [after].
  2:{ cbn [fst snd]. rewrite T0. apply start_fails. }
  destruct (perform_cases (Launch true) w s0) as (o1 & s1 & H1 & T1).
  rewrite H1. destruct o1 as [|e1]; cbn [after].
  2:{ destruct (perform_cases PlaywrightStop w s1) as (os & s2 & H2 & T2).
      rewrite H2. replace (trace (snd _)) with (trace s2) by (destruct os; reflexivity).
      replace (fst _) with (after (Raised e1) os) by (destruct os; reflexivity).
      rewrite T2, T1, T0. apply launch_fails. }
  destruct (perform_cases NewPage w s1) as (o2 & s2 & H2 & T2).
  rewrite H2. destruct o2 as [|e2]; cbn [after].
  2:{ destruct (perform_cases PlaywrightStop w s2) as (os & s3 & H3 & T3).
      rewrite H3. replace (trace (snd _)) with (trace s3) by (destruct os; reflexivity).
      replace (fst _) with (after (Raised e2) os) by (destruct os; reflexivity).
      rewrite T3, T2, T1, T0. apply new_page_fails. }
  destruct (try_shape (mkPage (clock s1)) (mkBrowser (clock s0)) w s2)
    as (evs & r & oc & s3 & H3 & T3 & Hb).
  rewrite H3.
  destruct (perform_cases PlaywrightStop w s3) as (os & s4 & H4 & T4).
  rewrite H4. replace (trace (snd _)) with (trace s4) by (destruct os; reflexivity).
  replace (fst _) with (after (after r oc) os) by (destruct os; reflexivity).
  rewrite T4, T3, T2, T1, T0. cbn [initial trace app].
  rewrite <- app_assoc. cbn [app].
  exact (try_entered evs r oc os Hb).
Qed.

(** ** Case analysis on a run *)

(** Case analysis on the shape of a run: the three failures before the
    [try] block, and the three ways of the [try] block. *)
Ltac shape_cases H :=
  let Hb := fresh "Hb" in
  destruct H as [e | e os | e os | evs r oc os Hb];
  [ | | | destruct Hb as [ o | e He | e o He ] ].

Ltac split_In H :=
  repeat match type of H with
         | _ \/ _ => destruct H as [H | H]
         end.

(** Closes a goal with a hypothesis [In ev evs] (or [In c cs]) over an
    explicit list that [ev] cannot be in. *)
Ltac absurd_In :=
  match goal with
  | H : In _ _ |- _ =>
      cbn in H; split_In H; try contradiction; try discriminate H;
      try (injection H as H; discriminate H); fail
  end.

(** A run in which an exception was raised during the steps: where, and
    what followed.  [site] is what the [try] body did. *)
Lemma raised_inv {evs : list event} {r : result unit} {x : exn} :
  run_shape evs r ->
  raised_in_steps evs x ->
  exists site oc os,
    ((site = [ok navigation; Threw not_callable] /\ x = not_callable) \/
     site = [Called navigation (Raises x)]) /\
    ((is_Exception x = true /\
      exists o,
        evs = map ok preamble ++ site
                ++ [Printed (error_line x);
                    Called (Screenshot error_png None) o;
                    Called Close oc; Called PlaywrightStop os] /\
        r = after (after (after (Returned tt) o) oc) os) \/
     (is_Exception x = false /\
      evs = map ok preamble ++ site
              ++ [Called Close oc; Called PlaywrightStop os] /\
      r = after (after (Raised x) oc) os)).
Proof.
  intros H Hraised.
  shape_cases H;
    (destruct Hraised as [Hin | (c & Hc & Hin)];
     cbn in Hin; split_In Hin; try contradiction; try discriminate Hin;
     try (injection Hin as <- _; discriminate Hc)).
  - (* line 17 *)
    injection Hin as <-.
    exists [ok navigation; Threw not_callable], oc, os.
    split; [left; split; reflexivity | left].
    split; [reflexivity | exists o; split; reflexivity].
  - (* the navigation raised, uncaught *)
    injection Hin as _ <-.
    exists [Called navigation (Raises e)], oc, os.
    split; [right; reflexivity | right].
    split; [exact He | split; reflexivity].
  - (* the navigation raised, caught *)
    injection Hin as _ <-.
    exists [Called navigation (Raises e)], oc, os.
    split; [right; reflexivity | left].
    split; [exact He | exists o; split; reflexivity].
Qed.

(** ** Properties of every call of a run *)

Lemma every_call_sound (P : list event -> call -> bool) (before : list event) :
  forall done evs c o later,
    every_call P done evs = true ->
    evs = before ++ Called c o :: later ->
    P (done ++ before) c = true.
Proof.
  induction before as [|b before IH]; intros done evs c o later Hall ->.
  - cbn in Hall. apply andb_prop in Hall. rewrite app_nil_r. apply Hall.
  - cbn [app every_call] in Hall. apply andb_prop in Hall.
    destruct Hall as [_ Hall].
    specialize (IH _ _ c o later Hall eq_refl).
    rewrite <- app_assoc in IH. exact IH.
Qed.

Lemma shape_on_open_page {evs : list event} {r : result unit} :
  run_shape evs r -> every_call on_open_page [] evs = true.
Proof. intros H. shape_cases H; reflexivity. Qed.

Lemma no_close_call (evs : list event) :
  existsb is_close_call evs = false -> ~ In Close (calls_of evs).
Proof.
  induction evs as [|ev evs IH]; intros H Hin; [exact Hin|].
  cbn in H. apply orb_false_elim in H. destruct H as [Hev H].
  destruct ev as [c o|e|l]; try exact (IH H Hin).
  cbn in Hin. destruct Hin as [-> | Hin]; [discriminate Hev | exact (IH H Hin)].
Qed.

Lemma page_in_use_spec (before : list event) :
  page_in_use before = true ->
  In (Called NewPage Done) before /\ ~ In Close (calls_of before).
Proof.
  unfold page_in_use. intros H.
  apply andb_prop in H. destruct H as [Hopen Hclose]. split.
  - apply existsb_exists in Hopen. destruct Hopen as (ev & Hin & Hev).
    destruct ev as [[] []| |]; try discriminate Hev. exact Hin.
  - apply no_close_call. now apply negb_true_iff in Hclose.
Qed.

(** ** Counting browsers and pages *)

Lemma open_after_bound (evs : list event) :
  forall b p,
    fst (open_after evs b p) <= b + launched evs /\
    snd (open_after evs b p) <= p + pages_created evs.
Proof.
  unfold launched, pages_created, count.
  induction evs as [|ev evs IH]; intros b p.
  - cbn. lia.
  - destruct ev as [c o|e|l]; [destruct c; destruct o as [|e]| |];
      cbn [open_after returned_calls filter is_launch is_new_page List.length];
      try apply IH.
    + specialize (IH (S b) p). lia.
    + specialize (IH b (S p)). lia.
    + specialize (IH (pred b) 0). lia.
    + specialize (IH 0 0). lia.
Qed.

Lemma returned_firstn (p : call -> bool) (n : nat) :
  forall evs,
    count p (returned_calls (firstn n evs)) <= count p (returned_calls evs).
Proof.
  unfold count.
  induction n as [|n IH]; intros evs; [cbn; lia|].
  destruct evs as [|ev evs]; [cbn; lia|].
  specialize (IH evs).
  destruct ev as [c o|e|l]; [destruct c; destruct o as [|e]| |];
    cbn [firstn returned_calls]; try exact IH;
    cbn [filter];
    match goal with |- context [p ?c] => destruct (p c) end;
    cbn [List.length]; lia.
Qed.

Lemma shape_one_browser {evs : list event} {r : result unit} :
  run_shape evs r ->
  launched evs <= 1 /\ pages_created evs <= 1 /\
  count is_launch (calls_of evs) <= 1 /\ count is_new_page (calls_of evs) <= 1 /\
  (In (Called PlaywrightStart Done) evs -> count is_launch (calls_of evs) = 1) /\
  (In (Called (Launch true) Done) evs -> count is_new_page (calls_of evs) = 1) /\
  (In (Called NewPage Done) evs -> launched evs = 1 /\ pages_created evs = 1).
Proof.
  intros H. shape_cases H;
    repeat match goal with o : outcome |- _ => destruct o end;
    (split; [|split; [|split; [|split; [|split; [|split]]]]]);
    try (cbv; lia);
    first [ intros _; reflexivity
          | intros _; split; reflexivity
          | intros Hin; exfalso; cbn in Hin; intuition discriminate ].
Qed.

(** ** The closing calls *)




(** The library is stopped once, last, when it had started. *)
Lemma shape_stop {evs : list event} {r : result unit} :
  run_shape evs r ->
  count is_stop (calls_of evs) <= 1 /\
  (In (Called PlaywrightStart Done) evs ->
   exists before os,
     evs = before ++ [Called PlaywrightStop os] /\
     count is_stop (calls_of before) = 0) /\
  (forall e, In (Called PlaywrightStart (Raises e)) evs ->
             evs = [Called PlaywrightStart (Raises e)] /\ r = Raised e).
Proof.
  intros H.
  destruct H as [e | e os | e os | body r' oc os Hb].
  - split; [cbv; lia | split].
    + intros Hin. absurd_In.
    + intros e' Hin. cbn in Hin. destruct Hin as [Hin | []].
      injection Hin as ->. split; reflexivity.
  - split; [cbv; lia | split].
    + intros _. exists [ok PlaywrightStart; Called (Launch true) (Raises e)], os.
      split; reflexivity.
    + intros e' Hin. absurd_In.
  - split; [cbv; lia | split].
    + intros _.
      exists [ok PlaywrightStart; ok (Launch true); Called NewPage (Raises e)], os.
      split; reflexivity.
    + intros e' Hin. absurd_In.
  - split; [destruct Hb; cbv; lia | split].
    + intros _. exists (map ok preamble ++ body ++ [Called Close oc]), os.
      split; [rewrite <- !app_assoc; reflexivity | destruct Hb; reflexivity].
    + intros e' Hin. exfalso. destruct Hb; absurd_In.
Qed.

(** An exception of the library's stop is what leaves [main]. *)
Lemma stop_raised_inv {evs : list event} {r : result unit} {x : exn} :
  run_shape evs r ->
  In (Called PlaywrightStop (Raises x)) evs ->
  r = Raised x.
Proof.
  intros H Hin.
  shape_cases H; cbn in Hin; split_In Hin;
    try contradiction; try discriminate Hin;
    injection Hin as ->; reflexivity.
Qed.

(** So is an exception of [browser.close()], when the stop returns. *)
Lemma close_raised_inv {evs : list event} {r : result unit} {x : exn} :
  run_shape evs r ->
  In (Called Close (Raises x)) evs ->
  In (Called PlaywrightStop Done) evs ->
  r = Raised x.
Proof.
  intros H Hin Hstop.
  shape_cases H; cbn in Hin; split_In Hin;
    try contradiction; try discriminate Hin;
    injection Hin as ->;
    cbn in Hstop; split_In Hstop;
    try contradiction; try discriminate Hstop;
    injection Hstop as ->; reflexivity.
Qed.

(** A run that did not open its page. *)
Lemma not_entered_inv {evs : list event} {r : result unit} :
  run_shape evs r ->
  ~ In (Called NewPage Done) evs ->
  steps_taken evs = [] /\ printed evs = [] /\ files_written evs = [] /\
  screenshot_calls evs = [] /\ ~ In Close (calls_of evs) /\
  exists e, r = Raised e.
Proof.
  intros H Hno.
  destruct H as [e | e os | e os | body r' oc os Hb].
  - repeat split; try reflexivity; [cbn; intuition discriminate | eauto].
  - repeat split; try reflexivity; [cbn; intuition discriminate |].
    destruct os; cbn; eauto.
  - repeat split; try reflexivity; [cbn; intuition discriminate |].
    destruct os; cbn; eauto.
  - exfalso. apply Hno. cbn. tauto.
Qed.

(** The size of a run. *)
Lemma shape_budget {evs : list event} {r : result unit} :
  run_shape evs r ->
  1 <= List.length (calls_of evs) <= 17 /\
  (total_bound_ms evs <= 142000)%Z /\
  List.length (printed evs) <= 1.
Proof.
  intros H. shape_cases H;
    (split; [cbn; lia | split; [vm_compute; discriminate | cbn; lia]]).
Qed.

(** A run from which [main] returns: a step failed with an [Exception],
    the handler's screenshot and the closing calls returned. *)
Lemma normal_exit_inv {evs : list event} {r : result unit} :
  run_shape evs r ->
  r = Returned tt ->
  exists site e,
    ((site = [ok navigation; Threw not_callable] /\ e = not_callable) \/
     site = [Called navigation (Raises e)]) /\
    is_Exception e = true /\
    evs = map ok preamble ++ site
            ++ [Printed (error_line e); ok (Screenshot error_png None);
                ok Close; ok PlaywrightStop].
Proof.
  intros H Hr.
  shape_cases H;
    repeat match goal with o : outcome |- _ => destruct o end;
    try discriminate Hr.
  - exists [ok navigation; Threw not_callable], not_callable.
    split; [left; split; reflexivity | split; reflexivity].
  - exists [Called navigation (Raises e)], e.
    split; [right; reflexivity | split; [exact He | reflexivity]].
Qed.

(** What the calls of a run can be. *)
Lemma shape_calls {evs : list event} {r : result unit} (c : call) :
  run_shape evs r ->
  In c (calls_of evs) ->
  c = PlaywrightStart \/ c = Launch true \/ c = NewPage \/ c = navigation \/
  c = Screenshot error_png None \/ c = Close \/ c = PlaywrightStop.
Proof.
  intros H Hin.
  shape_cases H; cbn in Hin; split_In Hin; try contradiction; subst c; tauto.
Qed.

(** ** Exploring a run from the library's answers *)

(** Unfolds the run down to the calls. *)
Ltac unfold_run :=
  unfold program, scrolled, events, run, main, async_with, try_except_finally,
    async_playwright, playwright_stop, launch, new_page, close, steps,
    on_error, goto, expect_to_be_visible, click, hover, evaluate,
    wait_for_timeout, screenshot, call_locator, throw, print, bind, now, ret,
    perform, initial.

(** Case analysis on every answer the goal still depends on. *)
Ltac explore_rest w :=
  repeat match goal with
         | |- context [respond w ?k] =>
             destruct (respond w k) as [|?]; cbn -[Qmult Qdiv inject_Z]
         | |- context [is_Exception ?e] =>
             destruct (is_Exception e); cbn -[Qmult Qdiv inject_Z]
         end.

(** * The claims *)

(** ** C1: the single handler *)

(** C1, as stated, fails for an exception outside [Exception]: when the
    navigation of step 1 is interrupted (the exception derives from
    [BaseException] only), [except Exception] does not catch it.  Nothing
    is printed, no screenshot is attempted, and the exception leaves
    [main]. *)
Lemma C1_uncaught_interrupt :
  raised_in_steps (events (failing 3 interrupted)) interrupted /\
  printed (events (failing 3 interrupted)) = [] /\
  screenshot_calls (events (failing 3 interrupted)) = [] /\
  program (failing 3 interrupted) = UnhandledException interrupted /\
  ~ (forall e,
       raised_in_steps (events (failing 3 interrupted)) e ->
       printed (events (failing 3 interrupted)) = [error_line e] /\
       In (Screenshot error_png None)
          (calls_of (events (failing 3 interrupted)))).
Proof.
  assert (Hraised : raised_in_steps (events (failing 3 interrupted)) interrupted).
  { right. exists navigation. split; [reflexivity | cbv; tauto]. }
  split; [exact Hraised|]. split; [reflexivity|]. split; [reflexivity|].
  split; [reflexivity|].
  intros Hall. destruct (Hall _ Hraised) as [Hprinted _].
  discriminate Hprinted.
Qed.

(** C1, amended: an exception raised during the steps - by a call of a
    step or by the script's own evaluation - that is an instance of
    [Exception] is caught once by the one handler, which prints the
    message and attempts the diagnostic screenshot; what is done after the
    failure does not depend on the exception (no category is
    distinguished), no step is performed after the failing one (nothing is
    retried), and [main] returns normally unless the handler's screenshot
    or a closing call itself raises (no error value reaches a caller).  An
    exception that is not an instance of [Exception] is not caught: nothing
    is printed, no screenshot is attempted, and after the closing calls an
    exception leaves [main]. *)
Theorem C1_exception_handled_once (w : world) (e : exn) :
  raised_in_steps (events w) e ->
  (is_Exception e = true ->
   exists before o oc os,
     events w = before ++ [Printed (error_line e);
                           Called (Screenshot error_png None) o;
                           Called Close oc; Called PlaywrightStop os] /\
     calls_of before = preamble ++ [navigation] /\
     printed (events w) = [error_line e] /\
     screenshot_calls (events w) = [Screenshot error_png None] /\
     steps_taken (events w) = [navigation] /\
     fst (run w) = after (after (after (Returned tt) o) oc) os) /\
  (is_Exception e = false ->
   exists oc os,
     events w = map ok preamble
                  ++ [Called navigation (Raises e);
                      Called Close oc; Called PlaywrightStop os] /\
     printed (events w) = [] /\
     screenshot_calls (events w) = [] /\
     fst (run w) = after (after (Raised e) oc) os /\
     exists e', program w = UnhandledException e').
Proof.
  intros Hraised.
  destruct (raised_inv (anatomy w) Hraised)
    as (site & oc & os & Hsite & [(He & o & Hev & Hr) | (He & Hev & Hr)]).
  - split; [intros _ | intros He'; congruence].
    exists (map ok preamble ++ site), o, oc, os.
    rewrite Hev, Hr.
    split; [now rewrite <- app_assoc|].
    destruct Hsite as [[-> ->] | ->]; repeat split; reflexivity.
  - split; [intros He'; congruence | intros _].
    destruct Hsite as [[-> ->] | ->]; [discriminate He|].
    exists oc, os. unfold program. rewrite Hev, Hr.
    repeat split; try reflexivity.
    destruct os as [|e1]; [destruct oc as [|e1]|]; eexists; reflexivity.
Qed.

(** The amended C1 on the run where the library answers every call (line
    17 raises its [TypeError], which the handler catches) and on the run
    where the navigation is interrupted. *)
Lemma C1_exception_handled_once_witness :
  (exists before o oc os,
     events all_ok = before ++ [Printed (error_line not_callable);
                                Called (Screenshot error_png None) o;
                                Called Close oc; Called PlaywrightStop os] /\
     calls_of before = preamble ++ [navigation] /\
     printed (events all_ok) = [error_line not_callable] /\
     screenshot_calls (events all_ok) = [Screenshot error_png None] /\
     steps_taken (events all_ok) = [navigation] /\
     fst (run all_ok) = after (after (after (Returned tt) o) oc) os) /\
  (exists oc os,
     events (failing 3 interrupted)
       = map ok preamble
           ++ [Called navigation (Raises interrupted);
               Called Close oc; Called PlaywrightStop os] /\
     printed (events (failing 3 interrupted)) = [] /\
     screenshot_calls (events (failing 3 interrupted)) = [] /\
     fst (run (failing 3 interrupted))
       = after (after (Raised interrupted) oc) os /\
     exists e', program (failing 3 interrupted) = UnhandledException e').
Proof.
  split.
  - refine (proj1 (C1_exception_handled_once all_ok not_callable _) _).
    + left. cbv. tauto.
    + reflexivity.
  - refine (proj2 (C1_exception_handled_once
                     (failing 3 interrupted) interrupted _) _).
    + right. exists navigation. split; [reflexivity | cbv; tauto].
    + reflexivity.
Defined.

(** ** C2: the browser is released *)




(** ** C3: the bounds of the waits *)

(** C3, as stated, fails on the navigation: [page.goto] is given 60000 ms,
    not the 30 s stated for the major transitions. *)
Lemma C3_navigation_bound_is_60s :
  In (LibraryNavigation, 60000%Z)
     (bounded_waits (calls_of (events all_ok))) /\
  stated_bound LibraryNavigation = 30000%Z /\
  ~ (forall k t, In (k, t) (bounded_waits (calls_of (events all_ok))) ->
                 t = stated_bound k).
Proof.
  assert (H : In (LibraryNavigation, 60000%Z)
                 (bounded_waits (calls_of (events all_ok))))
    by (cbv; tauto).
  split; [exact H | split; [reflexivity|]].
  intros Hall. specialize (Hall _ _ H). discriminate Hall.
Qed.

(** C3, amended: the timeout of the library-page navigation is 60
    seconds.  It is the bounded wait of every run that has opened its page,
    and no run performs another one. *)
Theorem C3_wait_bounds (w : world) :
  (forall k t,
     In (k, t) (bounded_waits (calls_of (events w))) ->
     k = LibraryNavigation /\ t = 60000%Z) /\
  (In (Called NewPage Done) (events w) ->
   bounded_waits (calls_of (events w)) = [(LibraryNavigation, 60000%Z)]).
Proof.
  pose proof (anatomy w) as H. split.
  - intros k t Hin.
    shape_cases H; cbn in Hin; split_In Hin; try contradiction;
      injection Hin as <- <-; split; reflexivity.
  - intros Hin. shape_cases H; try absurd_In; reflexivity.
Qed.

(** The amended C3 on the run where the library answers every call. *)
Lemma C3_wait_bounds_witness :
  (LibraryNavigation = LibraryNavigation /\ 60000%Z = 60000%Z) /\
  bounded_waits (calls_of (events all_ok)) = [(LibraryNavigation, 60000%Z)].
Proof.
  split.
  - apply (proj1 (C3_wait_bounds all_ok) LibraryNavigation 60000%Z).
    cbv. tauto.
  - apply (proj2 (C3_wait_bounds all_ok)).
    cbv. tauto.
Defined.

(** ** C4: the screenshot files *)

(** C4, as stated, fails on a failed run whose diagnostic screenshot
    fails too: the navigation times out, the handler's screenshot call
    finds the target closed, and no file is written. *)
Lemma C4_no_error_file :
  raised_in_steps (events (failing_twice 3 timed_out 4 target_closed))
    timed_out /\
  files_written (events (failing_twice 3 timed_out 4 target_closed)) = [] /\
  ~ (forall e,
       raised_in_steps
         (events (failing_twice 3 timed_out 4 target_closed)) e ->
       In error_png
          (files_written (events (failing_twice 3 timed_out 4 target_closed)))).
Proof.
  assert (Hraised : raised_in_steps
                      (events (failing_twice 3 timed_out 4 target_closed))
                      timed_out).
  { right. exists navigation. split; [reflexivity | cbv; tauto]. }
  split; [exact Hraised | split; [reflexivity|]].
  intros H. exact (H _ Hraised).
Qed.

(** C4, amended: on a failed run - a step raises an [Exception] - whose
    handler's screenshot call returns, the run writes a screenshot to the
    fixed path [jules-scratch/verification/error.png] and no other file;
    the call passes the path only, so it is not a full-page capture, and
    no run makes a full-page capture. *)
Theorem C4_screenshot_files (w : world) (e : exn) :
  raised_in_steps (events w) e ->
  is_Exception e = true ->
  In (Called (Screenshot error_png None) Done) (events w) ->
  files_written (events w) = ["jules-scratch/verification/error.png"] /\
  screenshot_calls (events w)
    = [Screenshot "jules-scratch/verification/error.png" None] /\
  existsb captures_full_page (calls_of (events w)) = false.
Proof.
  intros Hraised He Hshot.
  destruct (raised_inv (anatomy w) Hraised)
    as (site & oc & os & Hsite & [(_ & o & Hev & _) | (He' & _)]);
    [|congruence].
  rewrite Hev in Hshot |- *.
  assert (Ho : o = Done).
  { destruct Hsite as [[-> ->] | ->]; cbn in Hshot; split_In Hshot;
      try contradiction; try discriminate Hshot;
      injection Hshot as ->; reflexivity. }
  subst o. destruct Hsite as [[-> ->] | ->]; repeat split; reflexivity.
Qed.

(** The amended C4 on the run where the library answers every call: the
    [TypeError] of line 17 is handled and [error.png] is written. *)
Lemma C4_screenshot_files_witness :
  files_written (events all_ok) = ["jules-scratch/verification/error.png"] /\
  screenshot_calls (events all_ok)
    = [Screenshot "jules-scratch/verification/error.png" None] /\
  existsb captures_full_page (calls_of (events all_ok)) = false.
Proof.
  apply (C4_screenshot_files all_ok not_callable).
  - left. cbv. tauto.
  - reflexivity.
  - cbv. tauto.
Defined.

(** ** C5: one file, and the browser closed *)




(** ** C6: the sequence of steps *)

(** C6 does not hold of the script: no run gets past step 1.  Once the
    setup and the navigation are answered, the expression
    [page.locator(...).first()] of line 17 calls a locator and raises
    [TypeError]; the handler prints the error line and takes its
    screenshot, and the closing calls follow.  The steps a run performs are
    none, or the navigation alone. *)
Theorem C6_steps_stop_at_line_17 :
  (forall w, steps_taken (events w) = [] \/
             steps_taken (events w) = [navigation]) /\
  (forall w,
     (forall i, i < 4 -> respond w i = Done) ->
     events w
       = map ok preamble
           ++ [ok navigation; Threw not_callable;
               Printed (error_line not_callable);
               Called (Screenshot error_png None) (respond w 4);
               Called Close (respond w 5);
               Called PlaywrightStop (respond w 6)]).
Proof.
  split.
  - intros w. pose proof (anatomy w) as H.
    shape_cases H; first [left; reflexivity | right; reflexivity].
  - intros w Hdone. unfold_run.
    cbn -[Qmult Qdiv inject_Z].
    do 4 (rewrite Hdone by lia; cbn -[Qmult Qdiv inject_Z]).
    destruct (respond w 4); cbn -[Qmult Qdiv inject_Z];
      destruct (respond w 5); cbn -[Qmult Qdiv inject_Z];
      destruct (respond w 6); reflexivity.
Qed.

(** C6's run on the world that answers every call. *)
Lemma C6_steps_stop_at_line_17_witness :
  events all_ok
    = map ok preamble
        ++ [ok navigation; Threw not_callable;
            Printed (error_line not_callable);
            Called (Screenshot error_png None) (respond all_ok 4);
            Called Close (respond all_ok 5);
            Called PlaywrightStop (respond all_ok 6)].
Proof.
  apply (proj2 C6_steps_stop_at_line_17 all_ok).
  intros i Hi. reflexivity.
Defined.

(** ** C7: the scroll *)

(** C7 does not hold of the script: the scroll of step 7 is never reached.
    In no run is [evaluate] called, and the reading pane is at the end of
    every run as it was at the start. *)
Theorem C7_pane_never_scrolled :
  forall w : world,
    scrolled (events w) = false /\
    pane (snd (run w)) = reading_pane w /\
    (forall l f, ~ In (Evaluate l f) (calls_of (events w))).
Proof.
  intros w. split; [|split].
  - pose proof (anatomy w) as H. shape_cases H; reflexivity.
  - unfold_run. cbn -[Qmult Qdiv inject_Z]. explore_rest w; reflexivity.
  - intros l f Hin.
    destruct (shape_calls _ (anatomy w) Hin) as [H | [H | [H | [H | [H | [H | H]]]]]];
      discriminate H.
Qed.

(** ** C8: waits and interactions *)



(** ** C9: one browser, one page *)

(** C9: at every point of every run at most one browser and at most one
    page are open.  The runner calls [launch] at most once and [new_page]
    at most once in a run: [launch] exactly once when the library has
    started, [new_page] exactly once when the browser has been launched;
    and in a run that has opened its page exactly one browser was launched
    and exactly one page opened. *)
Theorem C9_one_browser_one_page (w : world) :
  (forall n, browsers_open (firstn n (events w)) <= 1 /\
             pages_open (firstn n (events w)) <= 1) /\
  count is_launch (calls_of (events w)) <= 1 /\
  count is_new_page (calls_of (events w)) <= 1 /\
  (In (Called PlaywrightStart Done) (events w) ->
   count is_launch (calls_of (events w)) = 1) /\
  (In (Called (Launch true) Done) (events w) ->
   count is_new_page (calls_of (events w)) = 1) /\
  (In (Called NewPage Done) (events w) ->
   launched (events w) = 1 /\ pages_created (events w) = 1).
Proof.
  destruct (shape_one_browser (anatomy w))
    as (Hl & Hp & Hcl & Hcp & Hstart & Hlaunch & Hone).
  split; [|repeat split; assumption || (apply Hone; assumption)].
  intros n.
  destruct (open_after_bound (firstn n (events w)) 0 0) as [Hb Hpg].
  pose proof (returned_firstn is_launch n (events w)) as Hfl.
  pose proof (returned_firstn is_new_page n (events w)) as Hfp.
  unfold browsers_open, pages_open, launched, pages_created in *.
  split; lia.
Qed.

(** C9 where opening the page fails, and on the run where everything
    returns. *)
Lemma C9_one_browser_one_page_witness :
  count is_launch (calls_of (events (failing 2 target_closed))) = 1 /\
  count is_new_page (calls_of (events (failing 2 target_closed))) = 1 /\
  launched (events all_ok) = 1 /\ pages_created (events all_ok) = 1.
Proof.
  split; [|split].
  - apply (proj1 (proj2 (proj2 (proj2 (C9_one_browser_one_page
                                         (failing 2 target_closed)))))).
    cbv. tauto.
  - apply (proj1 (proj2 (proj2 (proj2 (proj2 (C9_one_browser_one_page
                                                (failing 2 target_closed))))))).
    cbv. tauto.
  - apply (proj2 (proj2 (proj2 (proj2 (proj2 (C9_one_browser_one_page all_ok)))))).
    cbv. tauto.
Defined.

(** ** C10: the handler's own screenshot raising *)

(** C10: when the screenshot call inside the handler raises, the
    [finally] block still calls [browser.close()] right after it, the run
    writes no file, and an exception leaves [main], so the process ends
    with an unhandled exception; it is the screenshot's exception when the
    closing calls return. *)
Theorem C10_handler_screenshot_raises (w : world) (e2 : exn) :
  In (Called (Screenshot error_png None) (Raises e2)) (events w) ->
  (exists before oc os,
     events w = before ++ [Called (Screenshot error_png None) (Raises e2);
                           Called Close oc; Called PlaywrightStop os] /\
     program w = match os, oc with
                 | Raises e, _ => UnhandledException e
                 | Done, Raises e => UnhandledException e
                 | Done, Done => UnhandledException e2
                 end) /\
  (exists e, program w = UnhandledException e) /\
  count is_close (calls_of (events w)) = 1 /\
  files_written (events w) = [].
Proof.
  intros Hin.
  pose proof (anatomy w) as H. unfold program.
  shape_cases H; try absurd_In;
    (cbn in Hin; split_In Hin; try contradiction; try discriminate Hin;
     injection Hin as ->).
  - split; [|split; [|split]].
    + exists (map ok preamble
                ++ [ok navigation; Threw not_callable;
                    Printed (error_line not_callable)]), oc, os.
      split; [reflexivity | destruct os, oc; reflexivity].
    + destruct os as [|e']; [destruct oc as [|e']|]; eexists; reflexivity.
    + reflexivity.
    + reflexivity.
  - split; [|split; [|split]].
    + exists (map ok preamble
                ++ [Called navigation (Raises e); Printed (error_line e)]),
        oc, os.
      split; [reflexivity | destruct os, oc; reflexivity].
    + destruct os as [|e']; [destruct oc as [|e']|]; eexists; reflexivity.
    + reflexivity.
    + reflexivity.
Qed.

(** C10 where the navigation times out and the handler's screenshot finds
    the target closed. *)
Lemma C10_handler_screenshot_raises_witness :
  (exists before oc os,
     events (failing_twice 3 timed_out 4 target_closed)
       = before ++ [Called (Screenshot error_png None) (Raises target_closed);
                    Called Close oc; Called PlaywrightStop os] /\
     program (failing_twice 3 timed_out 4 target_closed)
       = match os, oc with
         | Raises e, _ => UnhandledException e
         | Done, Raises e => UnhandledException e
         | Done, Done => UnhandledException target_closed
         end) /\
  (exists e, program (failing_twice 3 timed_out 4 target_closed)
             = UnhandledException e) /\
  count is_close
    (calls_of (events (failing_twice 3 timed_out 4 target_closed))) = 1 /\
  files_written (events (failing_twice 3 timed_out 4 target_closed)) = [].
Proof.
  apply (C10_handler_screenshot_raises
           (failing_twice 3 timed_out 4 target_closed) target_closed).
  cbv. tauto.
Defined.

(** * Further properties of the runner *)

(** ** How the process ends *)

(** X1: when the process exits normally, a step has failed with an
    [Exception] - the [TypeError] of line 17 or an exception of the
    navigation -, the handler has printed its error line, and [error.png]
    is the one file written: a normal exit never means that the
    verification succeeded. *)
Theorem X1_normal_exit_is_a_handled_failure (w : world) :
  program w = ExitNormally ->
  exists e,
    raised_in_steps (events w) e /\ is_Exception e = true /\
    files_written (events w) = [error_png] /\
    printed (events w) = [error_line e].
Proof.
  intros Hexit.
  assert (Hr : fst (run w) = Returned tt).
  { unfold program in Hexit. destruct (fst (run w)) as [[]|e];
      [reflexivity | discriminate Hexit]. }
  destruct (normal_exit_inv (anatomy w) Hr) as (site & e & Hsite & He & Hev).
  exists e. rewrite Hev.
  destruct Hsite as [[-> ->] | ->].
  - split; [left; cbn; tauto | repeat split; reflexivity].
  - split; [right; exists navigation; split; [reflexivity | cbn; tauto]|].
    split; [exact He | split; reflexivity].
Qed.

(** X1 on the world that answers every call. *)
Lemma X1_normal_exit_is_a_handled_failure_witness :
  exists e,
    raised_in_steps (events all_ok) e /\ is_Exception e = true /\
    files_written (events all_ok) = [error_png] /\
    printed (events all_ok) = [error_line e].
Proof.
  apply (X1_normal_exit_is_a_handled_failure all_ok).
  reflexivity.
Defined.


(** X3: an exception raised while closing down replaces whatever the run
    had come to.  When the library's stop raises, that exception ends the
    process; when [browser.close()] raises and the stop returns, the
    exception of [close] does - also after a failure that the handler had
    dealt with. *)
Theorem X3_closing_exception_wins (w : world) (e : exn) :
  (In (Called PlaywrightStop (Raises e)) (events w) ->
   program w = UnhandledException e) /\
  (In (Called Close (Raises e)) (events w) ->
   In (Called PlaywrightStop Done) (events w) ->
   program w = UnhandledException e).
Proof.
  unfold program. split.
  - intros Hin. rewrite (stop_raised_inv (anatomy w) Hin). reflexivity.
  - intros Hin Hstop. rewrite (close_raised_inv (anatomy w) Hin Hstop).
    reflexivity.
Qed.

(** X3 where the exit of the [async with] block times out, and where
    [browser.close()] finds the target closed, both after the handler has
    dealt with the [TypeError] of line 17. *)
Lemma X3_closing_exception_wins_witness :
  program (failing 6 timed_out) = UnhandledException timed_out /\
  program (failing 5 target_closed) = UnhandledException target_closed /\
  printed (events (failing 5 target_closed)) = [error_line not_callable].
Proof.
  split; [|split].
  - apply (proj1 (X3_closing_exception_wins (failing 6 timed_out) timed_out)).
    cbv. tauto.
  - apply (proj2 (X3_closing_exception_wins (failing 5 target_closed)
                    target_closed)).
    + cbv. tauto.
    + cbv. tauto.
  - reflexivity.
Defined.

(** ** Before the steps and after them *)

(** X4: when the page is not opened (the library does not start, or
    [launch] or [new_page] raises), the run performs no step, prints
    nothing, attempts no screenshot, writes no file and does not call
    [browser.close()]; the exception leaves [main], so there is no
    diagnostic output for a failure of the setup. *)
Theorem X4_setup_failure_is_silent (w : world) :
  ~ In (Called NewPage Done) (events w) ->
  steps_taken (events w) = [] /\
  printed (events w) = [] /\
  files_written (events w) = [] /\
  screenshot_calls (events w) = [] /\
  ~ In Close (calls_of (events w)) /\
  exists e, program w = UnhandledException e.
Proof.
  intros Hno.
  destruct (not_entered_inv (anatomy w) Hno)
    as (Hs & Hp & Hf & Hc & Hcl & e & Hr).
  repeat split; try assumption.
  exists e. unfold program. rewrite Hr. reflexivity.
Qed.

(** X4 where the browser cannot be launched. *)
Lemma X4_setup_failure_is_silent_witness :
  steps_taken (events (failing 1 target_closed)) = [] /\
  printed (events (failing 1 target_closed)) = [] /\
  files_written (events (failing 1 target_closed)) = [] /\
  screenshot_calls (events (failing 1 target_closed)) = [] /\
  ~ In Close (calls_of (events (failing 1 target_closed))) /\
  exists e, program (failing 1 target_closed) = UnhandledException e.
Proof.
  apply (X4_setup_failure_is_silent (failing 1 target_closed)).
  cbv. intuition discriminate.
Defined.

(** X5: the exit of the [async with] block: in every run in which the
    library started, it is stopped exactly once, and that is the last
    thing the run does, whatever happened in between; when the library
    does not start, nothing else is attempted. *)
Theorem X5_library_stopped_once_last (w : world) :
  count is_stop (calls_of (events w)) <= 1 /\
  (In (Called PlaywrightStart Done) (events w) ->
   exists before os,
     events w = before ++ [Called PlaywrightStop os] /\
     count is_stop (calls_of before) = 0) /\
  (forall e,
     In (Called PlaywrightStart (Raises e)) (events w) ->
     events w = [Called PlaywrightStart (Raises e)] /\
     program w = UnhandledException e).
Proof.
  destruct (shape_stop (anatomy w)) as (Hle & Hlast & Hnone).
  split; [exact Hle | split; [exact Hlast|]].
  intros e Hin. destruct (Hnone e Hin) as [Hev Hr].
  split; [exact Hev|]. unfold program. rewrite Hr. reflexivity.
Qed.

(** X5 where [browser.close()] is interrupted, and where the library does
    not start. *)
Lemma X5_library_stopped_once_last_witness :
  (exists before os,
     events (failing 5 interrupted) = before ++ [Called PlaywrightStop os] /\
     count is_stop (calls_of before) = 0) /\
  (events (failing 0 target_closed)
     = [Called PlaywrightStart (Raises target_closed)] /\
   program (failing 0 target_closed) = UnhandledException target_closed).
Proof.
  split.
  - apply (proj1 (proj2 (X5_library_stopped_once_last (failing 5 interrupted)))).
    cbv. tauto.
  - apply (proj2 (proj2 (X5_library_stopped_once_last (failing 0 target_closed)))
             target_closed).
    cbv. tauto.
Defined.

(** X6: every run is short: it makes between 1 and 17 library calls, the
    bounds of its bounded waits add up to at most 142 seconds, and it
    prints at most one line. *)
Theorem X6_run_budget :
  forall w : world,
    1 <= List.length (calls_of (events w)) <= 17 /\
    (total_bound_ms (events w) <= 142000)%Z /\
    List.length (printed (events w)) <= 1.
Proof.
  intros w.
  destruct (shape_budget (anatomy w)) as (Hcalls & Hbounds & Hlines).
  split; [exact Hcalls | split; [exact Hbounds | exact Hlines]].
Qed.

(** ** The page and its browser *)

(** X10: a call on the page (a navigation, a wait, an interaction, a
    screenshot - the handler's included) is made only after [new_page]
    has returned and before [browser.close()] is called: the page is never
    used before it exists or after its browser was told to close. *)
Theorem X10_page_used_only_while_open
    (w : world) (before later : list event) (c : call) (o : outcome) :
  events w = before ++ Called c o :: later ->
  is_page_operation c = true ->
  In (Called NewPage Done) before /\ ~ In Close (calls_of before).
Proof.
  intros Hev Hc.
  pose proof (every_call_sound on_open_page before [] _ c o later
                (shape_on_open_page (anatomy w)) Hev) as H.
  cbn [app] in H. unfold on_open_page in H. rewrite Hc in H.
  exact (page_in_use_spec before H).
Qed.

(** X10 on the handler's screenshot, where the navigation times out. *)
Lemma X10_page_used_only_while_open_witness :
  In (Called NewPage Done)
     (map ok preamble
        ++ [Called (Goto library_url (Some 60000%Z)) (Raises timed_out);
            Printed (error_line timed_out)]) /\
  ~ In Close
      (calls_of
         (map ok preamble
            ++ [Called (Goto library_url (Some 60000%Z)) (Raises timed_out);
                Printed (error_line timed_out)])).
Proof.
  apply (X10_page_used_only_while_open (failing 3 timed_out)
           (map ok preamble
              ++ [Called (Goto library_url (Some 60000%Z)) (Raises timed_out);
                  Printed (error_line timed_out)])
           [ok Close; ok PlaywrightStop]
           (Screenshot error_png None) Done);
    reflexivity.
Defined.
